(** * The fake agent of caic: a shallow embedding and its specification

    [backend/internal/agent/fake/fake_agent.py] is the test double that the
    caic server launches in place of a real coding agent.  It writes one
    [system/init] record, then answers every non-empty line of its standard
    input with two streamed text deltas, an assistant message and a result
    record, cycling through a fixed list of jokes.

    The embedding follows the Python text: strings are [string]s (the
    characters the program writes are all ASCII; the characters of an input
    line are modelled by the 256 values of [ascii]), Python integers are
    [Z], the dictionaries passed to [emit] are ordered association lists
    wrapped in a small JSON value type, and the process is a
    state-and-exception monad over a world that holds the text written to
    standard output together with a chronological log of what the process
    did.  Standard input is the list of the lines that iterating
    [sys.stdin] yields. *)

From Stdlib Require Import String Ascii List ZArith Lia Bool DecimalString.
From Stdlib Require Import DecimalPos DecimalZ.
Import ListNotations.

Open Scope string_scope.
Open Scope Z_scope.

(** ** Python primitives used by the program *)

Module Py.

(** [len(s)] *)
Definition len (s : string) : Z := Z.of_nat (String.length s).

Fixpoint take (n : nat) (s : string) : string :=
  match n, s with
  | O, _ => ""
  | S _, "" => ""
  | S k, String c t => String c (take k t)
  end.

Fixpoint drop (n : nat) (s : string) : string :=
  match n, s with
  | O, _ => s
  | S _, "" => ""
  | S k, String _ t => drop k t
  end.

(** A slice bound seen from a sequence of length [n]: a negative bound
    counts from the end, and every bound is clipped to [0..n]. *)
Definition bound (n i : Z) : nat :=
  Z.to_nat (if i <? 0 then Z.max (i + n) 0 else Z.min i n).

(** [s[:stop]] *)
Definition slice_to (s : string) (stop : Z) : string :=
  take (bound (len s) stop) s.

(** [s[start:]] *)
Definition slice_from (s : string) (start : Z) : string :=
  drop (bound (len s) start) s.

(** Lowest position at which [sub] starts in [s], positions being
    numbered from [i]; [-1] when there is none. *)
Fixpoint scan (sub s : string) (i : Z) : Z :=
  if prefix sub s then i
  else match s with
       | "" => -1
       | String _ t => scan sub t (i + 1)
       end.

(** [s.find(sub, start)] *)
Definition find (sub s : string) (start : Z) : Z :=
  let n := len s in
  let start := if start <? 0 then Z.max (start + n) 0 else start in
  if n - start <? len sub then -1
  else scan sub (drop (Z.to_nat start) s) start.

Fixpoint mem (c : ascii) (chars : string) : bool :=
  match chars with
  | "" => false
  | String d t => Ascii.eqb c d || mem c t
  end.

(** [s.rstrip(chars)]: the trailing characters that occur in [chars]
    are removed. *)
Fixpoint rstrip (chars s : string) : string :=
  match s with
  | "" => ""
  | String c t =>
      match rstrip chars t with
      | "" => if mem c chars then "" else String c ""
      | t' => String c t'
      end
  end.

(** Truth value of a string: [not s] holds for the empty string only. *)
Definition truthy (s : string) : bool :=
  match s with "" => false | _ => true end.

(** The newline character. *)
Definition nl : string := String (ascii_of_nat 10) "".

End Py.

(** ** JSON values and [json.dumps] *)

Module Json.

#[local] Set Warnings "-register-all".

(** The values the program hands to [json.dumps]: strings, integers,
    float constants (kept as the decimal literal, which is also their
    [repr]), lists, and dictionaries in insertion order. *)
Inductive json : Type :=
| JStr (s : string)
| JInt (n : Z)
| JFloat (repr : string)
| JList (items : list json)
| JDict (fields : list (string * json)).

Definition quote : string := String (ascii_of_nat 34) "".

Definition hexdigit (n : nat) : ascii :=
  nth n (list_ascii_of_string "0123456789abcdef") "0"%char.

(** The escape of one character under [ensure_ascii=True]. *)
Definition escape_char (c : ascii) : string :=
  let n := nat_of_ascii c in
  if (n =? 34)%nat then "\" ++ quote
  else if (n =? 92)%nat then "\\"
  else if (n =? 10)%nat then "\n"
  else if (n =? 13)%nat then "\r"
  else if (n =? 9)%nat then "\t"
  else if (n =? 12)%nat then "\f"
  else if (n =? 8)%nat then "\b"
  else if ((32 <=? n) && (n <=? 126))%nat then String c ""
  else "\u00" ++ String (hexdigit (n / 16)) (String (hexdigit (n mod 16)) "").

Fixpoint escape (s : string) : string :=
  match s with
  | "" => ""
  | String c t => escape_char c ++ escape t
  end.

Definition encode_str (s : string) : string := quote ++ escape s ++ quote.

Fixpoint join (sep : string) (l : list string) : string :=
  match l with
  | [] => ""
  | [x] => x
  | x :: rest => x ++ sep ++ join sep rest
  end.

(** [json.dumps(obj, separators=(",", ":"))] *)
Fixpoint dumps (obj : json) : string :=
  match obj with
  | JStr s => encode_str s
  | JInt n => NilZero.string_of_int (Z.to_int n)
  | JFloat r => r
  | JList items => "[" ++ join "," (map dumps items) ++ "]"
  | JDict fields =>
      "{" ++ join "," (map (fun kv => encode_str (fst kv) ++ ":" ++ dumps (snd kv)) fields) ++ "}"
  end.

(** [obj[key]] on a dictionary. *)
Fixpoint lookup (key : string) (fields : list (string * json)) : option json :=
  match fields with
  | [] => None
  | (k, v) :: rest => if String.eqb key k then Some v else lookup key rest
  end.

Definition get (key : string) (obj : json) : option json :=
  match obj with
  | JDict fields => lookup key fields
  | _ => None
  end.

End Json.

Import Json.


(** ** The process: world, effects and exceptions *)

(** What the process does, in the order it does it: it takes a line from
    standard input, writes a record to standard output, or sleeps. *)
Inductive action : Type :=
| Read (line : string)
| Emit (obj : json)
| Sleep (seconds : string).

(** [stdout] is the text written so far; [log] is the chronological
    record of the actions. *)
Record world : Type := World { stdout : string; log : list action }.

Definition start : world := World "" [].

Inductive exn : Type := ZeroDivisionError | IndexError.

Inductive outcome (A : Type) : Type :=
| Ok (a : A)
| Raise (e : exn).
Arguments Ok {A} a.
Arguments Raise {A} e.

(** A computation runs in a world and either returns or raises; what was
    written before an exception stays written. *)
Definition M (A : Type) : Type := world -> outcome A * world.

Definition ret {A} (a : A) : M A := fun w => (Ok a, w).

Definition bind {A B} (c : M A) (k : A -> M B) : M B :=
  fun w => match c w with
           | (Ok a, w') => k a w'
           | (Raise e, w') => (Raise e, w')
           end.

Definition raise {A} (e : exn) : M A := fun w => (Raise e, w).

Notation "x <- c ;; k" := (bind c (fun x => k))
  (at level 61, c at next level, right associativity).
Notation "c ;; k" := (bind c (fun _ => k))
  (at level 61, right associativity).

Definition note (a : action) : M unit :=
  fun w => (Ok tt, World (stdout w) (log w ++ [a])).

(** [sys.stdout.write(s)]; the stream is taken to accept every write. *)
Definition write (s : string) : M unit :=
  fun w => (Ok tt, World (stdout w ++ s) (log w)).

(** [sys.stdout.flush()]: nothing is buffered in this model. *)
Definition flush : M unit := ret tt.

(** [time.sleep(seconds)] *)
Definition sleep (seconds : string) : M unit := note (Sleep seconds).

(** [a % b] *)
Definition pymod (a b : Z) : M Z :=
  if b =? 0 then raise ZeroDivisionError else ret (a mod b).

(** [l[i]] on a list. *)
Definition getitem {A} (l : list A) (i : Z) : M A :=
  let j := if i <? 0 then i + Z.of_nat (length l) else i in
  if j <? 0 then raise IndexError
  else match nth_error l (Z.to_nat j) with
       | Some x => ret x
       | None => raise IndexError
       end.

(** ** fake_agent.py *)

Definition JOKES : list string :=
  [ "Why do programmers prefer dark mode? Because light attracts bugs.";
    "A SQL query walks into a bar, sees two tables, and asks: Can I JOIN you?";
    "Why do Java developers wear glasses? Because they can not C#.";
    "How many programmers does it take to change a light bulb? None, that is a hardware problem.";
    "There are only 10 types of people: those who understand binary and those who do not.";
    "A programmer puts two glasses on his bedside table before going to sleep."
    ++ " A full one, in case he gets thirsty, and an empty one, in case he does not." ].

(** [emit(obj)]: one compact JSON line, written and flushed.  The log
    keeps the object that the line carries. *)
Definition emit (obj : json) : M unit :=
  write (dumps obj ++ Py.nl) ;;
  flush ;;
  note (Emit obj).

(** The two streamed parts of a response (the lines of [main] from
    [mid = len(joke) // 2] to [part2 = joke[sp + 1 :]]). *)
Definition split_point (joke : string) : Z :=
  let mid := Py.len joke / 2 in
  let sp := Py.find " " joke mid in
  if sp =? -1 then mid else sp.

Definition split (joke : string) : string * string :=
  let sp := split_point joke in
  let part1 := Py.slice_to joke (sp + 1) in
  let part2 := Py.slice_from joke (sp + 1) in
  (part1, part2).

(** The body of the [for] loop of [main], for one line of standard
    input; it returns the value of [turns] after the iteration. *)
Definition body (turns : Z) (line : string) : M Z :=
  let line := Py.rstrip Py.nl line in
  if negb (Py.truthy line) then ret turns
  else
    i <- pymod turns (Z.of_nat (length JOKES)) ;;
    joke <- getitem JOKES i ;;
    let turns := turns + 1 in
    let '(part1, part2) := split joke in
    emit (JDict
      [ ("type", JStr "stream_event");
        ("event", JDict
          [ ("type", JStr "content_block_delta");
            ("index", JInt 0);
            ("delta", JDict [("type", JStr "text_delta"); ("text", JStr part1)]) ]) ]) ;;
    sleep "0.05" ;;
    emit (JDict
      [ ("type", JStr "stream_event");
        ("event", JDict
          [ ("type", JStr "content_block_delta");
            ("index", JInt 0);
            ("delta", JDict [("type", JStr "text_delta"); ("text", JStr part2)]) ]) ]) ;;
    emit (JDict
      [ ("type", JStr "assistant");
        ("message", JDict
          [ ("role", JStr "assistant");
            ("content", JList [JDict [("type", JStr "text"); ("text", JStr joke)]]) ]) ]) ;;
    emit (JDict
      [ ("type", JStr "result");
        ("subtype", JStr "success");
        ("result", JStr joke);
        ("num_turns", JInt turns);
        ("total_cost_usd", JFloat "0.01");
        ("duration_ms", JInt 500) ]) ;;
    ret turns.

(** [for line in sys.stdin: ...], over the lines that iterating standard
    input yields (each with its line terminator, the last one possibly
    without). *)
Fixpoint loop (turns : Z) (lines : list string) : M Z :=
  match lines with
  | [] => ret turns
  | line :: rest =>
      note (Read line) ;;
      turns <- body turns line ;;
      loop turns rest
  end.

Definition main (stdin : list string) : M unit :=
  emit (JDict
    [ ("type", JStr "system");
      ("subtype", JStr "init");
      ("session_id", JStr "test-session");
      ("cwd", JStr "/workspace");
      ("model", JStr "fake-model");
      ("claude_code_version", JStr "0.0.0-test") ]) ;;
  let turns := 0 in
  _ <- loop turns stdin ;;
  ret tt.


(** ** Vocabulary of the specification *)

(** The records of the wire protocol, by shape. *)
Definition init_event : json :=
  JDict
    [ ("type", JStr "system");
      ("subtype", JStr "init");
      ("session_id", JStr "test-session");
      ("cwd", JStr "/workspace");
      ("model", JStr "fake-model");
      ("claude_code_version", JStr "0.0.0-test") ].

Definition delta_event (text : string) : json :=
  JDict
    [ ("type", JStr "stream_event");
      ("event", JDict
        [ ("type", JStr "content_block_delta");
          ("index", JInt 0);
          ("delta", JDict [("type", JStr "text_delta"); ("text", JStr text)]) ]) ].

Definition assistant_event (content : string) : json :=
  JDict
    [ ("type", JStr "assistant");
      ("message", JDict
        [ ("role", JStr "assistant");
          ("content", JList [JDict [("type", JStr "text"); ("text", JStr content)]]) ]) ].

Definition result_event (content : string) (num_turns : Z) : json :=
  JDict
    [ ("type", JStr "result");
      ("subtype", JStr "success");
      ("result", JStr content);
      ("num_turns", JInt num_turns);
      ("total_cost_usd", JFloat "0.01");
      ("duration_ms", JInt 500) ].

(** Field access, as a consumer of the stream would do it. *)
Definition type_of (obj : json) : option json := get "type" obj.

Definition subtype_of (obj : json) : option json := get "subtype" obj.

Definition is_init (obj : json) : bool :=
  match type_of obj, subtype_of obj with
  | Some (JStr t), Some (JStr st) => String.eqb t "system" && String.eqb st "init"
  | _, _ => false
  end.

Definition is_result (obj : json) : bool :=
  match type_of obj with
  | Some (JStr t) => String.eqb t "result"
  | _ => false
  end.

(** [obj["event"]["delta"]["text"]] *)
Definition delta_text (obj : json) : option json :=
  match get "event" obj with
  | Some ev => match get "delta" ev with
               | Some d => get "text" d
               | None => None
               end
  | None => None
  end.

(** [obj["message"]["content"]], which holds the text blocks. *)
Definition assistant_content (obj : json) : option json :=
  match get "message" obj with
  | Some m => get "content" m
  | None => None
  end.

Definition result_text (obj : json) : option json := get "result" obj.

Definition num_turns (obj : json) : option json := get "num_turns" obj.

(** The records a process emitted, in order. *)
Fixpoint records (l : list action) : list json :=
  match l with
  | [] => []
  | Emit obj :: rest => obj :: records rest
  | _ :: rest => records rest
  end.

(** The lines a process took from standard input, in order. *)
Fixpoint reads (l : list action) : list string :=
  match l with
  | [] => []
  | Read line :: rest => line :: reads rest
  | _ :: rest => reads rest
  end.

(** The text that the emitted records put on standard output. *)
Fixpoint wire (l : list action) : string :=
  match l with
  | [] => ""
  | Emit obj :: rest => dumps obj ++ Py.nl ++ wire rest
  | _ :: rest => wire rest
  end.

(** Number of line terminators in a text. *)
Fixpoint newlines (s : string) : nat :=
  match s with
  | "" => O
  | String c t => ((if Ascii.eqb c (ascii_of_nat 10) then 1 else 0) + newlines t)%nat
  end.

(** A line is blank when nothing is left of it once its line terminator
    is trimmed: the test [if not line] of the loop. *)
Definition blank (line : string) : bool :=
  negb (Py.truthy (Py.rstrip Py.nl line)).

(** Number of requests (lines that are not blank) among [lines]. *)
Definition requests (lines : list string) : nat :=
  length (filter (fun l => negb (blank l)) lines).

(** The response chosen when the turn counter reads [turns]. *)
Definition joke_at (turns : Z) : string :=
  nth (Z.to_nat (turns mod Z.of_nat (length JOKES))) JOKES "".

(** The actions of one turn that answers with [joke] and leaves the
    counter at [n]. *)
Definition turn (joke : string) (n : Z) : list action :=
  [ Emit (delta_event (fst (split joke)));
    Sleep "0.05";
    Emit (delta_event (snd (split joke)));
    Emit (assistant_event joke);
    Emit (result_event joke n) ].

(** The actions of the loop over [lines], entered with the counter at
    [turns]. *)
Fixpoint trace (turns : Z) (lines : list string) : list action :=
  match lines with
  | [] => []
  | line :: rest =>
      Read line ::
      (if blank line then trace turns rest
       else turn (joke_at turns) (turns + 1) ++ trace (turns + 1) rest)
  end.

(** The four records of the [k]-th request (counted from [0]) in a
    record sequence that starts with the initialization record. *)
Definition turn_records (recs : list json) (k : nat) : list json :=
  firstn 4 (skipn (1 + 4 * k) recs).

(** The run of the whole program on the lines [stdin]. *)
Definition run (stdin : list string) : outcome unit * world := main stdin start.

Definition output (stdin : list string) : list json := records (log (snd (run stdin))).

(** Character at a position, [None] outside the string. *)
Definition char_at (s : string) (i : Z) : option ascii :=
  if i <? 0 then None else String.get (Z.to_nat i) s.

Definition space : ascii := " "%char.

(** [str.isspace] on one character, for the characters below 256. *)
Definition is_whitespace (c : ascii) : bool :=
  let n := nat_of_ascii c in
  ((9 <=? n) && (n <=? 13) || (28 <=? n) && (n <=? 32) || (n =? 133) || (n =? 160))%nat.

(** Position of the first whitespace character of [s], positions being
    numbered from [i]. *)
Fixpoint first_whitespace (s : string) (i : Z) : option Z :=
  match s with
  | "" => None
  | String c t => if is_whitespace c then Some i else first_whitespace t (i + 1)
  end.

(** The split rule in the words of the specification: at the first
    whitespace at or after the midpoint, that character going to the first
    part; exactly at the midpoint when there is none. *)
Definition split_as_specified (content : string) : string * string :=
  let mid := Py.len content / 2 in
  match first_whitespace (Py.drop (Z.to_nat mid) content) mid with
  | Some i => (Py.slice_to content (i + 1), Py.slice_from content (i + 1))
  | None => (Py.slice_to content mid, Py.slice_from content mid)
  end.

(** Some character before the midpoint of [content] is whitespace. *)
Definition whitespace_before_midpoint (content : string) : Prop :=
  exists i c, 0 <= i < Py.len content / 2 /\ char_at content i = Some c /\ is_whitespace c = true.

(** The records of the [k]-th request by role, and a field of a record
    that may be missing. *)
Definition first_delta (recs : list json) (k : nat) : option json :=
  nth_error (turn_records recs k) 0.

Definition second_delta (recs : list json) (k : nat) : option json :=
  nth_error (turn_records recs k) 1.

Definition assistant_record (recs : list json) (k : nat) : option json :=
  nth_error (turn_records recs k) 2.

Definition result_record (recs : list json) (k : nat) : option json :=
  nth_error (turn_records recs k) 3.

Definition field (f : json -> option json) (rec : option json) : option json :=
  match rec with
  | Some obj => f obj
  | None => None
  end.

Definition text_block (content : string) : json :=
  JDict [("type", JStr "text"); ("text", JStr content)].

(** A string of [n] line terminators. *)
Fixpoint terminators (n : nat) : string :=
  match n with
  | O => ""
  | S k => Py.nl ++ terminators k
  end.

Fixpoint all_chars (p : ascii -> bool) (s : string) : bool :=
  match s with
  | "" => true
  | String c t => p c && all_chars p t
  end.

(** Whitespace other than the line feed: spaces, tabs, carriage returns
    and the like. *)
Definition other_whitespace (c : ascii) : bool :=
  is_whitespace c && negb (Ascii.eqb c (ascii_of_nat 10)).

(** Printable ASCII: the characters from the space to the tilde. *)
Definition printable (c : ascii) : bool :=
  let n := nat_of_ascii c in ((32 <=? n) && (n <=? 126))%nat.

(** The float literals of a value are printable text (as the [repr] of a
    finite float is). *)
Fixpoint floats_printable (obj : json) : bool :=
  match obj with
  | JStr _ => true
  | JInt _ => true
  | JFloat r => all_chars printable r
  | JList items => forallb floats_printable items
  | JDict fields => forallb (fun kv => floats_printable (snd kv)) fields
  end.

Definition is_line_feed (c : ascii) : bool := Ascii.eqb c (ascii_of_nat 10).

(** Number of spaces in a text. *)
Fixpoint spaces (s : string) : nat :=
  match s with
  | "" => O
  | String c t => ((if Ascii.eqb c space then 1 else 0) + spaces t)%nat
  end.

(** Number of spaces in the strings (keys, values and float literals) of
    a value. *)
Fixpoint spaces_of (obj : json) : nat :=
  match obj with
  | JStr s => spaces s
  | JInt _ => O
  | JFloat r => spaces r
  | JList items => list_sum (map spaces_of items)
  | JDict fields => list_sum (map (fun kv => spaces (fst kv) + spaces_of (snd kv))%nat fields)
  end.





(** What the process does about one line: nothing for a blank line, and
    for a request the first delta, the pause, the second delta, the
    assistant message and the result, in this order. *)
Definition answered (line : string) (answer : list action) : Prop :=
  if blank line then answer = []
  else exists part1 part2 content n,
      answer =
      [ Emit (delta_event part1); Sleep "0.05"; Emit (delta_event part2);
        Emit (assistant_event content); Emit (result_event content n) ].

(** Lines read one after the other, each followed by its answer. *)
Fixpoint dialogue (lines : list string) (answers : list (list action)) : list action :=
  match lines, answers with
  | line :: lines', answer :: answers' => Read line :: answer ++ dialogue lines' answers'
  | _, _ => []
  end.

(** ** Strings *)

Lemma append_empty_r (s : string) : s ++ "" = s.
Proof. induction s; simpl; congruence. Qed.

Lemma append_assoc (a b c : string) : (a ++ b) ++ c = a ++ b ++ c.
Proof. induction a; simpl; congruence. Qed.

Lemma take_drop (n : nat) (s : string) : Py.take n s ++ Py.drop n s = s.
Proof.
  revert s; induction n as [|n IH]; intros [|c t]; simpl; try reflexivity.
  now rewrite IH.
Qed.

Lemma length_take (n : nat) (s : string) :
  String.length (Py.take n s) = Nat.min n (String.length s).
Proof.
  revert s; induction n as [|n IH]; intros [|c t]; simpl; try reflexivity.
  now rewrite IH.
Qed.

Lemma length_drop (n : nat) (s : string) :
  String.length (Py.drop n s) = (String.length s - n)%nat.
Proof.
  revert s; induction n as [|n IH]; intros [|c t]; simpl; try reflexivity.
  apply IH.
Qed.

Lemma length_zero (s : string) : String.length s = O <-> s = "".
Proof. destruct s; simpl; split; congruence. Qed.

Lemma slice_glue (s : string) (k : Z) : Py.slice_to s k ++ Py.slice_from s k = s.
Proof. apply take_drop. Qed.

Lemma get_drop (n j : nat) (s : string) :
  String.get j (Py.drop n s) = String.get (n + j) s.
Proof.
  revert s; induction n as [|n IH]; intros [|c t]; simpl; auto.
Qed.

Lemma prefix_space (s : string) :
  prefix " " s = true <-> String.get 0 s = Some space.
Proof.
  destruct s as [|c t]; [split; discriminate|].
  change (prefix " " (String c t)) with (if ascii_dec " " c then prefix "" t else false).
  change (String.get 0 (String c t)) with (Some c).
  destruct (ascii_dec " " c) as [<-|N].
  - split; intros _; [reflexivity | now destruct t].
  - split; [discriminate | intros [= E]; now subst c].
Qed.

Lemma get_beyond (s : string) (j : nat) :
  (String.length s <= j)%nat -> String.get j s = None.
Proof.
  revert j; induction s as [|c t IH]; intros j H; [reflexivity|].
  destruct j as [|j]; simpl in *; [lia|]. apply IH; lia.
Qed.

Lemma get_take (n j : nat) (s : string) :
  (j < n)%nat -> String.get j (Py.take n s) = String.get j s.
Proof.
  revert j s; induction n as [|n IH]; intros j s H; [lia|].
  destruct s as [|c t]; [reflexivity|].
  destruct j as [|j]; [reflexivity|]. cbn [Py.take String.get]. apply IH. lia.
Qed.

Lemma get_within (s : string) (j : nat) (c : ascii) :
  String.get j s = Some c -> (j < String.length s)%nat.
Proof.
  intros H. destruct (Nat.lt_ge_cases j (String.length s)) as [L|G]; [exact L|].
  rewrite (get_beyond _ _ G) in H; discriminate.
Qed.

(** [scan] looks for the first space. *)
Lemma scan_space (s : string) (i : Z) :
  (Py.scan " " s i = -1 /\ forall j, String.get j s <> Some space) \/
  (exists k : nat,
      Py.scan " " s i = i + Z.of_nat k /\
      String.get k s = Some space /\
      forall j, (j < k)%nat -> String.get j s <> Some space).
Proof.
  revert i; induction s as [|c t IH]; intros i.
  - left; split; [reflexivity | intros j; destruct j; discriminate].
  - unfold Py.scan; fold Py.scan.
    destruct (prefix " " (String c t)) eqn:P.
    + right; exists O. rewrite Z.add_0_r. apply prefix_space in P.
      repeat split; [exact P | intros j Hj; lia].
    + assert (N : String.get 0 (String c t) <> Some space).
      { intros G. apply prefix_space in G. congruence. }
      destruct (IH (i + 1)) as [[E A] | (k & E & G & A)].
      * left; split; [exact E|]. intros [|j]; [exact N | apply A].
      * right; exists (S k). rewrite E. repeat split; [lia | exact G |].
        intros [|j] Hj; [exact N | apply A; lia].
Qed.

(** [joke.find(" ", mid)] for a position [mid] inside the string: the
    position of the first space at or after [mid], or [-1]. *)
Lemma find_space (s : string) (mid : Z) :
  0 <= mid <= Py.len s ->
  (Py.find " " s mid = -1 /\ forall j, mid <= j -> char_at s j <> Some space) \/
  (exists sp,
      Py.find " " s mid = sp /\ mid <= sp < Py.len s /\
      char_at s sp = Some space /\
      forall j, mid <= j < sp -> char_at s j <> Some space).
Proof.
  intros [H0 Hn]. unfold Py.find.
  replace (mid <? 0) with false by (symmetry; apply Z.ltb_ge; lia).
  change (Py.len " ") with 1.
  destruct (Py.len s - mid <? 1) eqn:L.
  - apply Z.ltb_lt in L. left; split; [reflexivity|].
    intros j Hj. unfold char_at.
    replace (j <? 0) with false by (symmetry; apply Z.ltb_ge; lia).
    rewrite get_beyond; [discriminate|]. unfold Py.len in *; lia.
  - apply Z.ltb_ge in L.
    destruct (scan_space (Py.drop (Z.to_nat mid) s) mid) as [[E A] | (k & E & G & A)].
    + left; split; [exact E|]. intros j Hj. unfold char_at.
      replace (j <? 0) with false by (symmetry; apply Z.ltb_ge; lia).
      specialize (A (Z.to_nat j - Z.to_nat mid)%nat). rewrite get_drop in A.
      replace (Z.to_nat mid + (Z.to_nat j - Z.to_nat mid))%nat with (Z.to_nat j) in A by lia.
      exact A.
    + right; exists (mid + Z.of_nat k). rewrite get_drop in G.
      assert (B := get_within _ _ _ G).
      assert (C : char_at s (mid + Z.of_nat k) = Some space).
      { unfold char_at.
        replace (mid + Z.of_nat k <? 0) with false by (symmetry; apply Z.ltb_ge; lia).
        replace (Z.to_nat (mid + Z.of_nat k)) with (Z.to_nat mid + k)%nat by lia.
        exact G. }
      repeat split; [exact E | lia | unfold Py.len; lia | exact C |].
      intros j Hj. unfold char_at.
      replace (j <? 0) with false by (symmetry; apply Z.ltb_ge; lia).
      specialize (A (Z.to_nat j - Z.to_nat mid)%nat). rewrite get_drop in A.
      replace (Z.to_nat mid + (Z.to_nat j - Z.to_nat mid))%nat with (Z.to_nat j) in A by lia.
      apply A; lia.
Qed.

Lemma midpoint_inside (s : string) : 0 <= Py.len s / 2 <= Py.len s.
Proof.
  unfold Py.len. split; [apply Z.div_pos; lia|].
  apply Z.div_le_upper_bound; lia.
Qed.

(** The split point of the program: the first space at or after the
    midpoint, or the midpoint itself when there is none. *)
Lemma split_point_cases (s : string) :
  let mid := Py.len s / 2 in
  (split_point s = mid /\ forall j, mid <= j -> char_at s j <> Some space) \/
  (mid <= split_point s < Py.len s /\
   char_at s (split_point s) = Some space /\
   forall j, mid <= j < split_point s -> char_at s j <> Some space).
Proof.
  intros mid. unfold split_point. fold mid.
  destruct (find_space s mid (midpoint_inside s)) as [[E A] | (sp & E & R & G & A)].
  - left. rewrite E. split; [reflexivity | exact A].
  - right. rewrite E. assert (M := midpoint_inside s). fold mid in M.
    replace (sp =? -1) with false by (symmetry; apply Z.eqb_neq; lia).
    auto.
Qed.

Lemma split_point_nonneg (s : string) : 0 <= split_point s.
Proof.
  assert (M := midpoint_inside s).
  destruct (split_point_cases s) as [[E _] | [R _]]; lia.
Qed.

Lemma bound_inside (n k : Z) : 0 <= n -> 0 <= k -> Py.bound n k = Z.to_nat (Z.min k n).
Proof.
  intros Hn Hk. unfold Py.bound.
  now replace (k <? 0) with false by (symmetry; apply Z.ltb_ge; lia).
Qed.

Lemma split_glue (content : string) :
  fst (split content) ++ snd (split content) = content.
Proof. unfold split; simpl. apply slice_glue. Qed.

Lemma split_first_empty (content : string) :
  fst (split content) = "" <-> content = "".
Proof.
  unfold split; simpl. unfold Py.slice_to.
  assert (P := split_point_nonneg content).
  rewrite bound_inside by (unfold Py.len; lia).
  rewrite <- !length_zero, length_take. unfold Py.len. lia.
Qed.

Lemma split_second_empty (content : string) :
  snd (split content) = "" <-> Py.len content <= split_point content + 1.
Proof.
  unfold split; simpl. unfold Py.slice_from.
  assert (P := split_point_nonneg content).
  rewrite bound_inside by (unfold Py.len; lia).
  rewrite <- length_zero, length_drop. unfold Py.len. lia.
Qed.

(** ** The monad *)

Lemma bind_ok {A B} (c : M A) (k : A -> M B) (w w' : world) (a : A) :
  c w = (Ok a, w') -> bind c k w = k a w'.
Proof. intros E. unfold bind. now rewrite E. Qed.

Lemma emit_run (obj : json) (w : world) :
  emit obj w = (Ok tt, World (stdout w ++ dumps obj ++ Py.nl) (log w ++ [Emit obj])).
Proof. reflexivity. Qed.

Lemma wire_app (a b : list action) : wire (a ++ b) = wire a ++ wire b.
Proof.
  induction a as [|[line|obj|secs] a IH]; simpl; try assumption; [reflexivity|].
  now rewrite IH, !append_assoc.
Qed.

Lemma records_app (a b : list action) :
  records (a ++ b) = (records a ++ records b)%list.
Proof.
  induction a as [|[line|obj|secs] a IH]; simpl; try assumption; [reflexivity|].
  now rewrite IH.
Qed.

(** ** The loop *)

Lemma jokes_length : Z.of_nat (length JOKES) = 6.
Proof. reflexivity. Qed.

(** The lookup [JOKES[turns % len(JOKES)]] never raises. *)
Lemma pymod_jokes (turns : Z) (w : world) :
  pymod turns (Z.of_nat (length JOKES)) w = (Ok (turns mod 6), w).
Proof. reflexivity. Qed.

Lemma getitem_jokes (turns : Z) (w : world) :
  getitem JOKES (turns mod 6) w = (Ok (joke_at turns), w).
Proof.
  unfold joke_at. rewrite jokes_length.
  assert (R : 0 <= turns mod 6 < 6) by (apply Z.mod_pos_bound; lia).
  unfold getitem.
  destruct (Z.ltb_spec (turns mod 6) 0) as [N|_]; [lia|].
  assert (L : (Z.to_nat (turns mod 6) < length JOKES)%nat).
  { change (length JOKES) with 6%nat. lia. }
  rewrite (nth_error_nth' JOKES "" L).
  destruct (Z.ltb_spec (turns mod 6) 0); [lia | reflexivity].
Qed.

Lemma body_blank (turns : Z) (line : string) (w : world) :
  blank line = true -> body turns line w = (Ok turns, w).
Proof. unfold body, blank. now intros ->. Qed.

Lemma body_request (turns : Z) (line : string) (w : world) :
  blank line = false ->
  body turns line w =
  (Ok (turns + 1),
   World (stdout w ++ wire (turn (joke_at turns) (turns + 1)))
         (log w ++ turn (joke_at turns) (turns + 1))).
Proof.
  unfold body, blank. intros ->. cbv iota.
  rewrite (bind_ok _ _ _ _ _ (pymod_jokes turns w)).
  rewrite (bind_ok _ _ _ _ _ (getitem_jokes turns w)).
  rewrite (surjective_pairing (split (joke_at turns))). cbv beta iota zeta.
  repeat (erewrite bind_ok by (apply emit_run || reflexivity)).
  unfold ret, turn. cbn [stdout log wire].
  rewrite !append_assoc, append_empty_r, <- !app_assoc. reflexivity.
Qed.

Lemma loop_run (lines : list string) (turns : Z) (w : world) :
  loop turns lines w =
  (Ok (turns + Z.of_nat (requests lines)),
   World (stdout w ++ wire (trace turns lines)) (log w ++ trace turns lines)).
Proof.
  revert turns w; induction lines as [|line rest IH]; intros turns w.
  - unfold requests; simpl. rewrite Z.add_0_r, append_empty_r, app_nil_r.
    now destruct w.
  - cbn [loop trace]. unfold bind at 1. cbn [note stdout log].
    unfold requests; cbn [filter]. fold (requests rest).
    destruct (blank line) eqn:B; cbn [negb].
    + rewrite (bind_ok _ _ _ _ _ (body_blank turns line _ B)), IH.
      cbn [stdout log wire]. now rewrite <- app_assoc.
    + rewrite (bind_ok _ _ _ _ _ (body_request turns line _ B)), IH.
      cbn [stdout log wire length]. rewrite wire_app, append_assoc, <- !app_assoc.
      fold (requests rest).
      replace (turns + 1 + Z.of_nat (requests rest))
        with (turns + Z.of_nat (S (requests rest))) by lia.
      reflexivity.
Qed.

Lemma main_run (stdin : list string) :
  run stdin =
  (Ok tt,
   World (wire (Emit init_event :: trace 0 stdin)) (Emit init_event :: trace 0 stdin)).
Proof.
  unfold run, main. rewrite (bind_ok _ _ _ _ _ (emit_run _ start)).
  cbv zeta. rewrite (bind_ok _ _ _ _ _ (loop_run stdin 0 _)).
  unfold ret. cbn [stdout log start wire app]. fold init_event.
  now rewrite append_assoc.
Qed.

(** ** Records and lines of a run *)

Lemma flat_map_shift {A} (f : nat -> list A) (start n : nat) :
  flat_map f (seq (S start) n) = flat_map (fun k => f (S k)) (seq start n).
Proof.
  revert start; induction n as [|n IH]; intros start; simpl; [reflexivity|].
  now rewrite IH.
Qed.

(** The records of the loop: one group of four per request, the [k]-th
    request after entry being answered with the counter at [turns + k]. *)
Lemma records_trace (lines : list string) (turns : Z) :
  records (trace turns lines) =
  flat_map (fun k => records (turn (joke_at (turns + Z.of_nat k)) (turns + Z.of_nat k + 1)))
           (seq 0 (requests lines)).
Proof.
  revert turns; induction lines as [|line rest IH]; intros turns; [reflexivity|].
  cbn [trace records]. unfold requests; cbn [filter].
  destruct (blank line); cbn [negb length]; fold (requests rest); [apply IH|].
  rewrite records_app, IH. cbn [seq flat_map].
  rewrite Z.add_0_r. f_equal.
  rewrite flat_map_shift. apply flat_map_ext. intros k.
  now replace (turns + 1 + Z.of_nat k) with (turns + Z.of_nat (S k)) by lia.
Qed.

Lemma output_run (stdin : list string) :
  output stdin =
  init_event ::
  flat_map (fun k => records (turn (joke_at (Z.of_nat k)) (Z.of_nat k + 1)))
           (seq 0 (requests stdin)).
Proof.
  unfold output. rewrite main_run. cbn [snd log records].
  now rewrite records_trace.
Qed.

(** A sequence made of groups of four, cut back into its groups. *)
Lemma group_of_four {A} (f : nat -> list A) :
  (forall i, length (f i) = 4%nat) ->
  forall k n start, (k < n)%nat ->
    firstn 4 (skipn (4 * k) (flat_map f (seq start n))) = f (start + k)%nat.
Proof.
  intros L. induction k as [|k IH]; intros [|n] start H; try lia.
  - rewrite Nat.mul_0_r. cbn [skipn seq flat_map]. rewrite Nat.add_0_r.
    rewrite firstn_app, L, Nat.sub_diag, firstn_O, app_nil_r.
    rewrite <- (L start) at 1. apply firstn_all.
  - cbn [seq flat_map].
    replace (4 * S k)%nat with (length (f start) + 4 * k)%nat by (rewrite L; lia).
    rewrite skipn_app, Nat.add_comm, Nat.add_sub.
    rewrite (skipn_all2 (f start)) by lia. cbn [app].
    rewrite IH by lia. f_equal; lia.
Qed.

Lemma flat_map_length_four {A} (f : nat -> list A) :
  (forall i, length (f i) = 4%nat) ->
  forall l, length (flat_map f l) = (4 * length l)%nat.
Proof.
  intros L. induction l as [|x l IH]; [reflexivity|].
  cbn [flat_map length]. rewrite length_app, L, IH. lia.
Qed.

(** The four records of the [k]-th request of a run. *)
Lemma output_turn (stdin : list string) (k : nat) :
  (k < requests stdin)%nat ->
  turn_records (output stdin) k =
  [ delta_event (fst (split (joke_at (Z.of_nat k))));
    delta_event (snd (split (joke_at (Z.of_nat k))));
    assistant_event (joke_at (Z.of_nat k));
    result_event (joke_at (Z.of_nat k)) (Z.of_nat k + 1) ].
Proof.
  intros H. unfold turn_records. rewrite output_run.
  change (skipn (1 + 4 * k) (init_event :: ?l)) with (skipn (4 * k) l).
  rewrite group_of_four by (reflexivity || exact H). reflexivity.
Qed.

Lemma output_length (stdin : list string) :
  length (output stdin) = (1 + 4 * requests stdin)%nat.
Proof.
  rewrite output_run. cbn [length].
  rewrite flat_map_length_four by reflexivity. now rewrite length_seq.
Qed.

(** Line terminators in the text written. *)

Lemma newlines_app (a b : string) : newlines (a ++ b) = (newlines a + newlines b)%nat.
Proof. induction a as [|c a IH]; simpl; [reflexivity|]. rewrite IH. lia. Qed.

Lemma newlines_escape_char (c : ascii) : newlines (escape_char c) = O.
Proof. destruct c as [[] [] [] [] [] [] [] []]; reflexivity. Qed.

Lemma newlines_escape (s : string) : newlines (escape s) = O.
Proof.
  induction s as [|c s IH]; [reflexivity|].
  cbn [escape]. now rewrite newlines_app, newlines_escape_char, IH.
Qed.

Lemma newlines_encode_str (s : string) : newlines (encode_str s) = O.
Proof.
  unfold encode_str. now rewrite !newlines_app, newlines_escape.
Qed.

Lemma newlines_uint (d : Decimal.uint) : newlines (NilEmpty.string_of_uint d) = O.
Proof. induction d; simpl; auto. Qed.

Lemma newlines_nz_uint (d : Decimal.uint) : newlines (NilZero.string_of_uint d) = O.
Proof.
  destruct d; [reflexivity | ..];
    unfold NilZero.string_of_uint; apply newlines_uint.
Qed.

Lemma newlines_int (n : Z) : newlines (NilZero.string_of_int (Z.to_int n)) = O.
Proof.
  unfold NilZero.string_of_int.
  destruct (Z.to_int n) as [d|d]; [apply newlines_nz_uint|].
  cbn [newlines]. now rewrite newlines_nz_uint.
Qed.

Lemma newlines_delta (text : string) : newlines (dumps (delta_event text)) = O.
Proof.
  unfold delta_event. cbn [dumps map join fst snd].
  rewrite !newlines_app, !newlines_encode_str. reflexivity.
Qed.

Lemma newlines_assistant (content : string) :
  newlines (dumps (assistant_event content)) = O.
Proof.
  unfold assistant_event. cbn [dumps map join fst snd].
  rewrite !newlines_app, !newlines_encode_str. reflexivity.
Qed.

Lemma newlines_result (content : string) (n : Z) :
  newlines (dumps (result_event content n)) = O.
Proof.
  unfold result_event. cbn [dumps map join fst snd].
  rewrite !newlines_app, !newlines_encode_str, !newlines_int. reflexivity.
Qed.

Lemma newlines_turn (joke : string) (n : Z) : newlines (wire (turn joke n)) = 4%nat.
Proof.
  unfold turn. cbn [wire].
  rewrite !newlines_app, !newlines_delta, newlines_assistant, newlines_result.
  reflexivity.
Qed.

Lemma newlines_trace (lines : list string) (turns : Z) :
  newlines (wire (trace turns lines)) = (4 * requests lines)%nat.
Proof.
  revert turns; induction lines as [|line rest IH]; intros turns; [reflexivity|].
  cbn [trace wire]. unfold requests; cbn [filter].
  destruct (blank line); cbn [negb length]; fold (requests rest); [apply IH|].
  rewrite wire_app, newlines_app, newlines_turn, IH. lia.
Qed.

(** Every record is one line of standard output. *)
Lemma stdout_lines (stdin : list string) :
  newlines (stdout (snd (run stdin))) = length (output stdin).
Proof.
  rewrite output_length, main_run. cbn [snd stdout wire].
  rewrite !newlines_app, newlines_trace. reflexivity.
Qed.

(** Standard output holds the serialization of the records of the log,
    one per line, and nothing else. *)
Lemma stdout_carries_the_log (stdin : list string) :
  stdout (snd (run stdin)) = wire (log (snd (run stdin))).
Proof. now rewrite main_run. Qed.

Lemma run_ok (stdin : list string) : fst (run stdin) = Ok tt.
Proof. now rewrite main_run. Qed.

Lemma requests_app (a b : list string) :
  requests (a ++ b) = (requests a + requests b)%nat.
Proof. unfold requests. now rewrite filter_app, length_app. Qed.

(** Records of a run cut at a line: what the process has written when it
    has consumed [before] is a prefix of what it writes on a longer input. *)
Lemma output_snoc (before : list string) (line : string) :
  output (before ++ [line]) =
  (output before ++
   if blank line then []
   else records (turn (joke_at (Z.of_nat (requests before)))
                      (Z.of_nat (requests before) + 1)))%list.
Proof.
  rewrite !output_run, requests_app.
  unfold requests at 2; cbn [filter].
  destruct (blank line); cbn [negb length].
  - now rewrite Nat.add_0_r, app_nil_r.
  - rewrite Nat.add_1_r, seq_S, flat_map_app. cbn [flat_map Nat.add].
    now rewrite app_nil_r.
Qed.

Lemma result_turns_trace (n : nat) :
  map num_turns
    (filter is_result
       (flat_map (fun k => records (turn (joke_at (Z.of_nat k)) (Z.of_nat k + 1))) (seq 0 n)))
  = map (fun k => Some (JInt (Z.of_nat k))) (seq 1 n).
Proof.
  induction n as [|n IH]; [reflexivity|].
  rewrite !seq_S, flat_map_app, filter_app, !map_app, IH.
  cbn [flat_map Nat.add app]. f_equal.
  cbn. repeat f_equal. lia.
Qed.

Lemma no_init_in_trace (lines : list string) (turns : Z) :
  forallb (fun obj => negb (is_init obj)) (records (trace turns lines)) = true.
Proof.
  revert turns; induction lines as [|line rest IH]; intros turns; [reflexivity|].
  cbn [trace records]. destruct (blank line); [apply IH|].
  rewrite records_app, forallb_app, IH. reflexivity.
Qed.

Lemma reads_trace (lines : list string) (turns : Z) :
  reads (trace turns lines) = lines.
Proof.
  revert turns; induction lines as [|line rest IH]; intros turns; [reflexivity|].
  cbn [trace reads]. f_equal. destruct (blank line); [apply IH|].
  unfold turn. cbn [app reads]. apply IH.
Qed.

Lemma trace_blank (lines : list string) (turns : Z) :
  forallb blank lines = true -> trace turns lines = map Read lines.
Proof.
  induction lines as [|line rest IH]; [reflexivity|].
  cbn [forallb trace map]. intros H. apply andb_true_iff in H as [B R].
  now rewrite B, IH.
Qed.

Lemma wire_reads (lines : list string) : wire (map Read lines) = "".
Proof. induction lines; simpl; auto. Qed.

Lemma requests_blank (lines : list string) :
  forallb blank lines = true -> requests lines = O.
Proof.
  unfold requests. induction lines as [|line rest IH]; [reflexivity|].
  cbn [forallb filter]. intros H. apply andb_true_iff in H as [B R].
  rewrite B. cbn [negb]. auto.
Qed.

(** Traces of two inputs with the same pattern of blank lines carry the
    same records and the same text. *)
Lemma trace_pattern (lines1 lines2 : list string) (turns : Z) :
  map blank lines1 = map blank lines2 ->
  wire (trace turns lines1) = wire (trace turns lines2) /\
  records (trace turns lines1) = records (trace turns lines2).
Proof.
  revert lines2 turns; induction lines1 as [|l1 rest1 IH];
    intros [|l2 rest2] turns H; try discriminate; [split; reflexivity|].
  cbn [map] in H. injection H as B R.
  cbn [trace wire records]. rewrite <- B.
  destruct (blank l1).
  - apply IH, R.
  - rewrite !wire_app, !records_app.
    destruct (IH rest2 (turns + 1) R) as [-> ->]. split; reflexivity.
Qed.

(** Trimming line terminators. *)

Lemma rstrip_terminators (n : nat) : Py.rstrip Py.nl (terminators n) = "".
Proof. induction n as [|n IH]; [reflexivity|]. cbn [terminators]. simpl. now rewrite IH. Qed.

Lemma rstrip_keeps (core : string) (n : nat) :
  all_chars (fun c => negb (Ascii.eqb c (ascii_of_nat 10))) core = true ->
  Py.rstrip Py.nl (core ++ terminators n) = core.
Proof.
  induction core as [|c t IH]; [intros _; apply rstrip_terminators|].
  cbn [all_chars]. intros H. apply andb_true_iff in H as [C T].
  change (String c t ++ terminators n) with (String c (t ++ terminators n)).
  cbn [Py.rstrip]. rewrite (IH T).
  destruct t; [|reflexivity].
  unfold Py.nl; cbn [Py.mem]. apply negb_true_iff in C. now rewrite C.
Qed.

Lemma all_chars_weaken (p q : ascii -> bool) (s : string) :
  (forall c, p c = true -> q c = true) -> all_chars p s = true -> all_chars q s = true.
Proof.
  intros W. induction s as [|c t IH]; [reflexivity|].
  cbn [all_chars]. intros H. apply andb_true_iff in H as [C T].
  now rewrite (W _ C), IH.
Qed.

Lemma num_turns_result (content : string) (n : Z) :
  num_turns (result_event content n) = Some (JInt n).
Proof. reflexivity. Qed.

(** ** The claims *)

(** C1.  Every request (a line that is not blank) makes the loop body emit
    exactly four records, in the order first delta, second delta, assistant
    message, result; a run has one record per line of standard output, the
    initialization record and four per request.  On three requests the
    program returns normally, writes exactly 13 lines (the initialization
    record and three groups of four, in that order), and the three result
    records carry [num_turns] 1, 2 and 3. *)
Theorem C1_four_records_per_request :
  (forall (turns : Z) (line : string) (w : world),
      blank line = false ->
      exists content part1 part2,
        fst (body turns line w) = Ok (turns + 1) /\
        records (log (snd (body turns line w))) =
        (records (log w) ++
         [ delta_event part1; delta_event part2;
           assistant_event content; result_event content (turns + 1) ])%list) /\
  (forall stdin : list string,
      length (output stdin) = (1 + 4 * requests stdin)%nat /\
      newlines (stdout (snd (run stdin))) = length (output stdin)) /\
  (forall l1 l2 l3 : string,
      blank l1 = false -> blank l2 = false -> blank l3 = false ->
      fst (run [l1; l2; l3]) = Ok tt /\
      length (output [l1; l2; l3]) = 13%nat /\
      newlines (stdout (snd (run [l1; l2; l3]))) = 13%nat /\
      map type_of (output [l1; l2; l3]) =
      map (fun t => Some (JStr t))
        [ "system";
          "stream_event"; "stream_event"; "assistant"; "result";
          "stream_event"; "stream_event"; "assistant"; "result";
          "stream_event"; "stream_event"; "assistant"; "result" ] /\
      map num_turns (filter is_result (output [l1; l2; l3])) =
      [Some (JInt 1); Some (JInt 2); Some (JInt 3)]).
Proof.
  split; [|split].
  - intros turns line w B.
    exists (joke_at turns), (fst (split (joke_at turns))), (snd (split (joke_at turns))).
    rewrite (body_request turns line w B). cbn [fst snd log].
    split; [reflexivity|]. now rewrite records_app.
  - intros stdin. split; [apply output_length | apply stdout_lines].
  - intros l1 l2 l3 B1 B2 B3.
    assert (R : requests [l1; l2; l3] = 3%nat).
    { unfold requests. cbn [filter]. now rewrite B1, B2, B3. }
    split; [apply run_ok|].
    rewrite stdout_lines, output_length, output_run, R.
    repeat split; reflexivity.
Qed.

Lemma C1_three_requests_witness :
  blank "fix the bug" = false /\
  length (output ["fix the bug"; "add a test"; "ship it"]) = 13%nat /\
  map num_turns (filter is_result (output ["fix the bug"; "add a test"; "ship it"])) =
  [Some (JInt 1); Some (JInt 2); Some (JInt 3)].
Proof.
  split; [reflexivity|].
  destruct (proj2 (proj2 C1_four_records_per_request)
              "fix the bug" "add a test" "ship it" eq_refl eq_refl eq_refl)
    as (_ & L & _ & _ & N).
  split; [exact L | exact N].
Defined.

(** C2.  The two parts of the split of any content concatenate to that
    content; and for every request of every run, the [text] fields of its
    two streamed deltas are the two parts of the split of the content that
    its assistant and result records carry, so that, concatenated, they are
    that content. *)
Theorem C2_deltas_concatenate_to_content :
  (forall content : string, fst (split content) ++ snd (split content) = content) /\
  (forall (stdin : list string) (k : nat),
      (k < requests stdin)%nat ->
      exists part1 part2 content,
        field delta_text (first_delta (output stdin) k) = Some (JStr part1) /\
        field delta_text (second_delta (output stdin) k) = Some (JStr part2) /\
        field assistant_content (assistant_record (output stdin) k) =
        Some (JList [text_block content]) /\
        field result_text (result_record (output stdin) k) = Some (JStr content) /\
        split content = (part1, part2) /\
        part1 ++ part2 = content).
Proof.
  split; [apply split_glue|].
  intros stdin k H.
  exists (fst (split (joke_at (Z.of_nat k)))), (snd (split (joke_at (Z.of_nat k)))),
    (joke_at (Z.of_nat k)).
  unfold first_delta, second_delta, assistant_record, result_record.
  rewrite (output_turn stdin k H).
  repeat split; try reflexivity. apply split_glue.
Qed.

Lemma C2_second_request_witness :
  (1 < requests ["one"; ""; "two"])%nat /\
  exists part1 part2 content,
    field delta_text (first_delta (output ["one"; ""; "two"]) 1) = Some (JStr part1) /\
    field delta_text (second_delta (output ["one"; ""; "two"]) 1) = Some (JStr part2) /\
    field assistant_content (assistant_record (output ["one"; ""; "two"]) 1) =
    Some (JList [text_block content]) /\
    field result_text (result_record (output ["one"; ""; "two"]) 1) = Some (JStr content) /\
    split content = (part1, part2) /\
    part1 ++ part2 = content.
Proof.
  assert (H : (1 < requests ["one"; ""; "two"])%nat) by (vm_compute; lia).
  split; [exact H|].
  exact (proj2 C2_deltas_concatenate_to_content ["one"; ""; "two"] 1%nat H).
Defined.

(** C3.  In every run, the [k]-th request (counted from 1) is answered with
    [JOKES[(k-1) mod len(JOKES)]]: that string is the text block of its
    assistant record and the [result] field of its result record.  Request
    [len(JOKES) + 1] therefore gets the assistant record and the result
    text of request 1. *)
Theorem C3_responses_cycle (stdin : list string) (k : nat) :
  (1 <= k <= requests stdin)%nat ->
  exists content,
    nth_error JOKES ((k - 1) mod length JOKES) = Some content /\
    field assistant_content (assistant_record (output stdin) (k - 1)) =
    Some (JList [text_block content]) /\
    field result_text (result_record (output stdin) (k - 1)) = Some (JStr content) /\
    (k = (length JOKES + 1)%nat ->
     assistant_record (output stdin) (k - 1) = assistant_record (output stdin) 0 /\
     field result_text (result_record (output stdin) (k - 1)) =
     field result_text (result_record (output stdin) 0)).
Proof.
  intros [H1 Hk].
  assert (J : joke_at (Z.of_nat (k - 1)) = nth ((k - 1) mod length JOKES) JOKES "").
  { unfold joke_at. f_equal.
    rewrite <- Nat2Z.inj_mod. apply Nat2Z.id. }
  exists (joke_at (Z.of_nat (k - 1))).
  unfold assistant_record, result_record.
  rewrite (output_turn stdin (k - 1)) by lia.
  split; [|split; [reflexivity | split; [reflexivity|]]].
  - rewrite J. apply nth_error_nth'.
    change (length JOKES) with 6%nat. apply Nat.mod_upper_bound. lia.
  - intros ->. rewrite (output_turn stdin 0) by lia. split; reflexivity.
Qed.

Lemma C3_seventh_request_witness :
  (1 <= 7 <= requests ["a"; "b"; "c"; "d"; "e"; "f"; "g"])%nat /\
  exists content,
    nth_error JOKES ((7 - 1) mod length JOKES) = Some content /\
    field assistant_content
      (assistant_record (output ["a"; "b"; "c"; "d"; "e"; "f"; "g"]) (7 - 1)) =
    Some (JList [text_block content]) /\
    field result_text
      (result_record (output ["a"; "b"; "c"; "d"; "e"; "f"; "g"]) (7 - 1)) =
    Some (JStr content) /\
    (7%nat = (length JOKES + 1)%nat ->
     assistant_record (output ["a"; "b"; "c"; "d"; "e"; "f"; "g"]) (7 - 1) =
     assistant_record (output ["a"; "b"; "c"; "d"; "e"; "f"; "g"]) 0 /\
     field result_text
       (result_record (output ["a"; "b"; "c"; "d"; "e"; "f"; "g"]) (7 - 1)) =
     field result_text
       (result_record (output ["a"; "b"; "c"; "d"; "e"; "f"; "g"]) 0)).
Proof.
  assert (H : (1 <= 7 <= requests ["a"; "b"; "c"; "d"; "e"; "f"; "g"])%nat)
    by (vm_compute; lia).
  split; [exact H|].
  exact (C3_responses_cycle ["a"; "b"; "c"; "d"; "e"; "f"; "g"] 7 H).
Defined.

(** C4.  The [num_turns] fields of the result records of a run are, in
    order, 1, 2, ..., up to the number of requests of the input: the
    counter starts at 1, grows by one per request and never decreases.
    Step by step: when the process has consumed [before] and takes one more
    line, a blank line adds no record, and a request adds four records, the
    last being a result record whose [num_turns] is the number of requests
    in [before] plus one.  Blank lines do not count: the records of a run
    are those of the run on the requests alone. *)
Theorem C4_num_turns_counts_requests :
  (forall stdin : list string,
      map num_turns (filter is_result (output stdin)) =
      map (fun n => Some (JInt (Z.of_nat n))) (seq 1 (requests stdin))) /\
  (forall (before : list string) (line : string),
      if blank line then output (before ++ [line]) = output before
      else exists d1 d2 a content,
          output (before ++ [line]) =
          (output before ++
           [d1; d2; a; result_event content (Z.of_nat (requests before) + 1)])%list /\
          num_turns (result_event content (Z.of_nat (requests before) + 1)) =
          Some (JInt (Z.of_nat (requests (before ++ [line]))))) /\
  (forall stdin : list string,
      output stdin = output (filter (fun l => negb (blank l)) stdin)).
Proof.
  split; [|split].
  - intros stdin. rewrite output_run. cbn [filter is_init is_result map].
    change (is_result init_event) with false. cbv iota.
    apply result_turns_trace.
  - intros before line. rewrite output_snoc.
    destruct (blank line) eqn:B; [apply app_nil_r|].
    eexists _, _, _, _. split; [reflexivity|].
    rewrite requests_app.
    change (requests [line]) with (length (if negb (blank line) then [line] else [])).
    rewrite B. cbn [negb length]. rewrite num_turns_result.
    repeat f_equal. lia.
  - intros stdin. rewrite !output_run. do 2 f_equal.
    unfold requests. f_equal. induction stdin as [|l rest IH]; [reflexivity|].
    cbn [filter]. destruct (blank l) eqn:B; cbn [negb filter]; [exact IH|].
    rewrite B. cbn [negb length]. now rewrite IH.
Qed.

(** C5.  In every run the first thing the process does is to emit the
    initialization record ([type] "system", [subtype] "init"): every line
    of the input is read after it, it is the first line of standard output,
    and no record after it is an initialization record, so that the run has
    exactly one. *)
Theorem C5_single_init_first (stdin : list string) :
  exists (rest : list action) (text : string),
    log (snd (run stdin)) = Emit init_event :: rest /\
    stdout (snd (run stdin)) = dumps init_event ++ Py.nl ++ text /\
    type_of init_event = Some (JStr "system") /\
    subtype_of init_event = Some (JStr "init") /\
    reads rest = stdin /\
    forallb (fun obj => negb (is_init obj)) (records rest) = true /\
    length (filter is_init (output stdin)) = 1%nat.
Proof.
  exists (trace 0 stdin), (wire (trace 0 stdin)).
  unfold output. rewrite main_run. cbn [snd log stdout wire records].
  repeat split; try reflexivity.
  - apply reads_trace.
  - apply no_init_in_trace.
  - cbn [filter]. change (is_init init_event) with true. cbv iota. cbn [length].
    f_equal. assert (N := no_init_in_trace stdin 0).
    induction (records (trace 0 stdin)) as [|obj l IH]; [reflexivity|].
    cbn [forallb filter] in *. apply andb_true_iff in N as [A B].
    apply negb_true_iff in A. rewrite A. now apply IH.
Qed.

(** C8.  A line of which nothing is left once its trailing line
    terminators are trimmed is consumed silently: the loop body returns
    normally with the turn counter and the world unchanged, and the loop
    goes on with the next line, having only taken the line from the input.
    On an input made of such lines only, the program returns normally and
    standard output holds exactly one line, the initialization record. *)
Theorem C8_blank_lines_are_skipped :
  (forall (turns : Z) (line : string) (rest : list string) (w : world),
      Py.rstrip Py.nl line = "" ->
      body turns line w = (Ok turns, w) /\
      loop turns (line :: rest) w =
      loop turns rest (World (stdout w) (log w ++ [Read line]))) /\
  (forall stdin : list string,
      Forall (fun line => Py.rstrip Py.nl line = "") stdin ->
      run stdin =
      (Ok tt, World (dumps init_event ++ Py.nl) (Emit init_event :: map Read stdin)) /\
      output stdin = [init_event] /\
      newlines (stdout (snd (run stdin))) = 1%nat).
Proof.
  assert (T : forall line, Py.rstrip Py.nl line = "" -> blank line = true).
  { intros line E. unfold blank. now rewrite E. }
  split.
  - intros turns line rest w E. specialize (T line E).
    split; [now apply body_blank|].
    cbn [loop]. unfold bind at 1. cbn [note].
    now rewrite (bind_ok _ _ _ _ _ (body_blank turns line _ T)).
  - intros stdin F.
    assert (B : forallb blank stdin = true).
    { apply forallb_forall. intros line I.
      apply T. now apply (proj1 (Forall_forall _ _) F). }
    assert (R : run stdin =
                (Ok tt, World (dumps init_event ++ Py.nl) (Emit init_event :: map Read stdin))).
    { rewrite main_run, (trace_blank stdin 0 B). cbn [wire].
      now rewrite wire_reads, append_empty_r. }
    split; [exact R|]. split.
    + rewrite output_run, (requests_blank stdin B). reflexivity.
    + rewrite stdout_lines, output_length, (requests_blank stdin B). reflexivity.
Qed.

Lemma C8_blank_input_witness :
  Py.rstrip Py.nl Py.nl = "" /\
  body 2 Py.nl start = (Ok 2, start) /\
  output [Py.nl; Py.nl ++ Py.nl; ""] = [init_event] /\
  newlines (stdout (snd (run [Py.nl; Py.nl ++ Py.nl; ""]))) = 1%nat.
Proof.
  split; [reflexivity|]. split.
  - exact (proj1 (proj1 C8_blank_lines_are_skipped 2 Py.nl [] start eq_refl)).
  - refine (proj2 (proj2 C8_blank_lines_are_skipped [Py.nl; Py.nl ++ Py.nl; ""] _)).
    repeat constructor.
Defined.

(** C9.  The output of a run depends on the input only through which of
    its lines are blank: two inputs whose lines are pairwise alike under
    the blank test give the same outcome, the same text on standard output
    and the same sequence of records. *)
Theorem C9_output_ignores_line_text (stdin1 stdin2 : list string) :
  map blank stdin1 = map blank stdin2 ->
  fst (run stdin1) = fst (run stdin2) /\
  stdout (snd (run stdin1)) = stdout (snd (run stdin2)) /\
  output stdin1 = output stdin2.
Proof.
  intros P. unfold output. rewrite !main_run. cbn [fst snd stdout log wire records].
  destruct (trace_pattern stdin1 stdin2 0 P) as [-> ->].
  repeat split; reflexivity.
Qed.

Lemma C9_two_inputs_witness :
  map blank ["tell me a joke"; ""; "x"] = map blank ["rm -rf /"; Py.nl; "another"] /\
  fst (run ["tell me a joke"; ""; "x"]) = fst (run ["rm -rf /"; Py.nl; "another"]) /\
  stdout (snd (run ["tell me a joke"; ""; "x"])) =
  stdout (snd (run ["rm -rf /"; Py.nl; "another"])) /\
  output ["tell me a joke"; ""; "x"] = output ["rm -rf /"; Py.nl; "another"].
Proof.
  split; [reflexivity|].
  exact (C9_output_ignores_line_text
           ["tell me a joke"; ""; "x"] ["rm -rf /"; Py.nl; "another"] eq_refl).
Defined.

(** C10.  Only line feeds are trimmed before the emptiness test.  A line
    made of a non-empty run of other whitespace (spaces, tabs, a carriage
    return left by a CRLF terminator, ...) followed by any number of line
    feeds keeps that whitespace after trimming, is not blank, and is
    answered like any request: the four records of a turn are emitted and
    the turn counter goes up by one. *)
Theorem C10_whitespace_line_is_a_request
  (core : string) (n : nat) (turns : Z) (w : world) :
  core <> "" ->
  all_chars other_whitespace core = true ->
  Py.rstrip Py.nl (core ++ terminators n) = core /\
  blank (core ++ terminators n) = false /\
  exists content part1 part2,
    fst (body turns (core ++ terminators n) w) = Ok (turns + 1) /\
    records (log (snd (body turns (core ++ terminators n) w))) =
    (records (log w) ++
     [ delta_event part1; delta_event part2;
       assistant_event content; result_event content (turns + 1) ])%list.
Proof.
  intros NE WS.
  assert (K : Py.rstrip Py.nl (core ++ terminators n) = core).
  { apply rstrip_keeps. revert WS. apply all_chars_weaken.
    intros c H. unfold other_whitespace in H. now apply andb_true_iff in H as [_ H]. }
  assert (B : blank (core ++ terminators n) = false).
  { unfold blank. rewrite K. now destruct core. }
  split; [exact K|]. split; [exact B|].
  exists (joke_at turns), (fst (split (joke_at turns))), (snd (split (joke_at turns))).
  rewrite (body_request turns _ w B). cbn [fst snd log].
  split; [reflexivity|]. now rewrite records_app.
Qed.

Lemma C10_spaces_and_crlf_witness :
  (Py.rstrip Py.nl ("   " ++ terminators 1) = "   " /\
   blank ("   " ++ terminators 1) = false /\
   fst (body 0 ("   " ++ terminators 1) start) = Ok 1) /\
  (Py.rstrip Py.nl (String (ascii_of_nat 13) "" ++ terminators 1) = String (ascii_of_nat 13) "" /\
   blank (String (ascii_of_nat 13) "" ++ terminators 1) = false /\
   fst (body 0 (String (ascii_of_nat 13) "" ++ terminators 1) start) = Ok 1).
Proof.
  split.
  - destruct (C10_whitespace_line_is_a_request "   " 1 0 start)
      as (K & B & _ & _ & _ & R & _); [discriminate | reflexivity |].
    split; [exact K|]. split; [exact B | exact R].
  - destruct (C10_whitespace_line_is_a_request (String (ascii_of_nat 13) "") 1 0 start)
      as (K & B & _ & _ & _ & R & _); [discriminate | reflexivity |].
    split; [exact K|]. split; [exact B | exact R].
Defined.

(** C6, as the specification words it, fails in both of its parts.  On a
    content without whitespace, ["abcd"], whose midpoint is at offset 2, the
    program puts the character at the midpoint into the first part.  And
    the boundary the program looks for is the space character alone: in
    ["abcdef<TAB>gh ij"] the tab at the midpoint (offset 6) is passed over
    and the split is made after the space at offset 9. *)
Lemma C6_split_counterexample :
  (split "abcd" = ("abc", "d") /\
   split_as_specified "abcd" = ("ab", "cd") /\
   split "abcd" <> split_as_specified "abcd") /\
  (let content := "abcdef" ++ String (ascii_of_nat 9) "gh ij" in
   split content = ("abcdef" ++ String (ascii_of_nat 9) "gh ", "ij") /\
   split_as_specified content = ("abcdef" ++ String (ascii_of_nat 9) "", "gh ij") /\
   split content <> split_as_specified content).
Proof. repeat split; discriminate. Qed.

(** C6, amended.  With [mid = len(content) // 2]: when [content] has a
    space at or after offset [mid], the split is made just after the first
    such space (the first part is [content[:sp+1]] and ends with that
    space, the second part is [content[sp+1:]]); when it has none, the first
    part is [content[:mid+1]], the characters up to and including the one
    at offset [mid], and the second part is [content[mid+1:]]. *)
Theorem C6_split_after_next_space (content : string) :
  let mid := Py.len content / 2 in
  (exists sp,
      mid <= sp < Py.len content /\
      char_at content sp = Some space /\
      (forall j, mid <= j < sp -> char_at content j <> Some space) /\
      split content = (Py.slice_to content (sp + 1), Py.slice_from content (sp + 1)) /\
      Py.len (fst (split content)) = sp + 1 /\
      char_at (fst (split content)) sp = Some space) \/
  ((forall j, mid <= j -> char_at content j <> Some space) /\
   split content = (Py.slice_to content (mid + 1), Py.slice_from content (mid + 1))).
Proof.
  intros mid.
  destruct (split_point_cases content) as [[E A] | (R & G & A)]; fold mid in E || fold mid in R.
  - right. split; [exact A|]. unfold split. now rewrite E.
  - left. exists (split_point content). fold mid in A.
    assert (M := midpoint_inside content). fold mid in M.
    repeat split; try assumption; try lia.
    + unfold split; cbn [fst]. unfold Py.slice_to, Py.len.
      rewrite bound_inside by (unfold Py.len; lia).
      rewrite length_take. unfold Py.len in *. lia.
    + unfold split; cbn [fst]. unfold Py.slice_to.
      rewrite bound_inside by (unfold Py.len; lia).
      replace (Z.min (split_point content + 1) (Py.len content))
        with (split_point content + 1) by lia.
      unfold char_at in *.
      destruct (Z.ltb_spec (split_point content) 0) as [N|_]; [lia|].
      rewrite <- G. apply get_take. lia.
Qed.

(** C7, as stated, fails: [" a"] is not empty and has a space before its
    midpoint (offset 1), yet its second part is empty.  The same happens
    when the first space at or after the midpoint ends the content. *)
Lemma C7_empty_second_delta_counterexample :
  " a" <> "" /\
  whitespace_before_midpoint " a" /\
  split " a" = (" a", "") /\
  snd (split " a") = "".
Proof.
  split; [discriminate|]. split; [|split; reflexivity].
  exists 0, space. split; [split; [lia | reflexivity] | split; reflexivity].
Qed.

Example split_trailing_space : split "ab cd " = ("ab cd ", "").
Proof. reflexivity. Qed.

(** C7, amended.  The first delta text is empty only for the empty
    content.  The second delta text is empty in exactly two cases: the
    content has no space at or after its midpoint offset and is at most two
    characters long, or the first space at or after the midpoint is the
    last character of the content.  Whitespace before the midpoint plays no
    part. *)
Theorem C7_delta_emptiness (content : string) :
  let mid := Py.len content / 2 in
  let last := Py.len content - 1 in
  (fst (split content) = "" <-> content = "") /\
  (snd (split content) = "" <->
   ((forall j, mid <= j -> char_at content j <> Some space) /\ Py.len content <= 2) \/
   (mid <= last /\ char_at content last = Some space /\
    forall j, mid <= j < last -> char_at content j <> Some space)).
Proof.
  intros mid last. split; [apply split_first_empty|].
  rewrite split_second_empty.
  assert (M := midpoint_inside content). fold mid in M.
  assert (D : 2 * mid <= Py.len content < 2 * mid + 2).
  { unfold mid. assert (Q := Z.div_mod (Py.len content) 2).
    assert (Q' := Z.mod_pos_bound (Py.len content) 2). lia. }
  destruct (split_point_cases content) as [[E A] | (R & G & A)];
    fold mid in E || fold mid in R; try fold mid in A.
  - rewrite E. split.
    + intros H. left. split; [exact A | lia].
    + intros [[_ H] | (H1 & H2 & _)]; [lia|].
      exfalso. apply (A last H1 H2).
  - split.
    + intros H. right. replace last with (split_point content) by (unfold last; lia).
      repeat split; try assumption; lia.
    + intros [[N _] | (H1 & H2 & H3)].
      * exfalso. apply (N (split_point content)); [lia | exact G].
      * destruct (Z.lt_ge_cases (split_point content) last) as [L|L]; [|unfold last in *; lia].
        exfalso. apply (H3 (split_point content)); [lia | exact G].
Qed.

(** Every response of the program has both of its parts non-empty. *)
Example jokes_split_in_two :
  forallb (fun joke => Py.truthy (fst (split joke)) && Py.truthy (snd (split joke))) JOKES = true.
Proof. reflexivity. Qed.

(** ** Further properties of [emit] and [main] *)

(** Induction on JSON values, with the elements of lists and dictionaries
    as induction hypotheses. *)
Lemma json_nested_ind (P : json -> Prop) :
  (forall s, P (JStr s)) ->
  (forall n, P (JInt n)) ->
  (forall r, P (JFloat r)) ->
  (forall items, Forall P items -> P (JList items)) ->
  (forall fields, Forall (fun kv => P (snd kv)) fields -> P (JDict fields)) ->
  forall obj, P obj.
Proof.
  intros HS HI HF HL HD.
  fix IH 1. intros [s|n|r|items|fields].
  - apply HS.
  - apply HI.
  - apply HF.
  - apply HL. induction items as [|x items IHitems]; constructor; [apply IH | exact IHitems].
  - apply HD. induction fields as [|[k v] fields IHfields]; constructor;
      [apply IH | exact IHfields].
Qed.

Lemma all_chars_app (p : ascii -> bool) (a b : string) :
  all_chars p (a ++ b) = all_chars p a && all_chars p b.
Proof.
  induction a as [|c a IH]; [reflexivity|].
  cbn [append all_chars]. now rewrite IH, andb_assoc.
Qed.

Lemma printable_escape_char (c : ascii) : all_chars printable (escape_char c) = true.
Proof. destruct c as [[] [] [] [] [] [] [] []]; reflexivity. Qed.

Lemma printable_escape (s : string) : all_chars printable (escape s) = true.
Proof.
  induction s as [|c s IH]; [reflexivity|].
  cbn [escape]. now rewrite all_chars_app, printable_escape_char, IH.
Qed.

Lemma printable_encode_str (s : string) : all_chars printable (encode_str s) = true.
Proof.
  unfold encode_str. now rewrite !all_chars_app, printable_escape.
Qed.

Lemma printable_uint (d : Decimal.uint) :
  all_chars printable (NilEmpty.string_of_uint d) = true.
Proof. induction d; simpl; auto. Qed.

Lemma printable_int (n : Z) :
  all_chars printable (NilZero.string_of_int (Z.to_int n)) = true.
Proof.
  unfold NilZero.string_of_int.
  assert (U : forall d, all_chars printable (NilZero.string_of_uint d) = true).
  { intros d. destruct d; [reflexivity | ..];
      unfold NilZero.string_of_uint; apply printable_uint. }
  destruct (Z.to_int n) as [d|d]; [apply U|].
  cbn [all_chars]. now rewrite U.
Qed.

Lemma printable_join (l : list string) :
  Forall (fun s => all_chars printable s = true) l ->
  all_chars printable (join "," l) = true.
Proof.
  induction 1 as [|x l Hx Hl IH]; [reflexivity|].
  destruct l as [|y l]; [exact Hx|].
  change (join "," (x :: y :: l)) with (x ++ "," ++ join "," (y :: l)).
  now rewrite !all_chars_app, Hx, IH.
Qed.

Lemma printable_dumps (obj : json) :
  floats_printable obj = true -> all_chars printable (dumps obj) = true.
Proof.
  induction obj as [s|n|r|items IH|fields IH] using json_nested_ind; intros W.
  - apply printable_encode_str.
  - apply printable_int.
  - exact W.
  - cbn [dumps]. rewrite !all_chars_app. cbn [floats_printable] in W.
    rewrite printable_join; [reflexivity|].
    apply Forall_map. rewrite forallb_forall in W. rewrite Forall_forall in *.
    intros x I. apply (IH x I), W, I.
  - cbn [dumps]. rewrite !all_chars_app. cbn [floats_printable] in W.
    rewrite printable_join; [reflexivity|].
    apply Forall_map. rewrite forallb_forall in W. rewrite Forall_forall in *.
    intros [k v] I. cbn [fst snd].
    rewrite !all_chars_app, printable_encode_str. cbn [all_chars andb].
    apply (IH _ I), (W _ I).
Qed.

Lemma printable_no_line_feed (s : string) :
  all_chars printable s = true -> newlines s = O.
Proof.
  induction s as [|c s IH]; [reflexivity|].
  cbn [all_chars newlines]. intros H. apply andb_true_iff in H as [C S].
  rewrite (IH S).
  destruct c as [[] [] [] [] [] [] [] []]; try discriminate C; reflexivity.
Qed.

(** X1.  Whatever object [emit] is given, as long as its float literals
    are printable, the call returns normally and appends to standard output
    the serialization of the object, made of printable ASCII characters
    only (no control character, no character above the tilde), followed by a
    line feed: standard output gets exactly one more line. *)
Theorem X1_emit_writes_one_printable_line (obj : json) (w : world) :
  floats_printable obj = true ->
  emit obj w = (Ok tt, World (stdout w ++ dumps obj ++ Py.nl) (log w ++ [Emit obj])) /\
  all_chars printable (dumps obj) = true /\
  newlines (stdout w ++ dumps obj ++ Py.nl) = S (newlines (stdout w)).
Proof.
  intros W. split; [reflexivity|].
  assert (P := printable_dumps obj W). split; [exact P|].
  rewrite !newlines_app, (printable_no_line_feed _ P). cbn. lia.
Qed.

Lemma X1_two_line_text_witness :
  let obj := JDict [ ("text", JStr ("first" ++ Py.nl ++ "second"));
                     ("cost", JFloat "0.01");
                     ("tags", JList [JStr (String (ascii_of_nat 233) ""); JInt (-7)]) ] in
  floats_printable obj = true /\
  all_chars printable (dumps obj) = true /\
  newlines (stdout start ++ dumps obj ++ Py.nl) = 1%nat.
Proof.
  cbv zeta. split; [reflexivity|].
  match goal with
  | |- all_chars printable (dumps ?o) = true /\ _ =>
      exact (proj2 (X1_emit_writes_one_printable_line o start eq_refl))
  end.
Defined.

Lemma spaces_app (a b : string) : spaces (a ++ b) = (spaces a + spaces b)%nat.
Proof. induction a as [|c a IH]; simpl; [reflexivity|]. rewrite IH. lia. Qed.

Lemma spaces_escape_char (c : ascii) :
  spaces (escape_char c) = spaces (String c "").
Proof. destruct c as [[] [] [] [] [] [] [] []]; reflexivity. Qed.

Lemma spaces_escape (s : string) : spaces (escape s) = spaces s.
Proof.
  induction s as [|c s IH]; [reflexivity|].
  cbn [escape]. rewrite spaces_app, spaces_escape_char, IH. cbn [spaces]. lia.
Qed.

Lemma spaces_encode_str (s : string) : spaces (encode_str s) = spaces s.
Proof.
  unfold encode_str. rewrite !spaces_app, spaces_escape. cbn. lia.
Qed.

Lemma spaces_uint (d : Decimal.uint) : spaces (NilEmpty.string_of_uint d) = O.
Proof. induction d; simpl; auto. Qed.

Lemma spaces_int (n : Z) : spaces (NilZero.string_of_int (Z.to_int n)) = O.
Proof.
  unfold NilZero.string_of_int.
  assert (U : forall d, spaces (NilZero.string_of_uint d) = O).
  { intros d. destruct d; [reflexivity | ..];
      unfold NilZero.string_of_uint; apply spaces_uint. }
  destruct (Z.to_int n) as [d|d]; [apply U|].
  cbn [spaces]. now rewrite U.
Qed.

Lemma spaces_join (l : list string) :
  spaces (join "," l) = list_sum (map spaces l).
Proof.
  induction l as [|x l IH]; [reflexivity|].
  destruct l as [|y l]; [cbn; lia|].
  change (join "," (x :: y :: l)) with (x ++ "," ++ join "," (y :: l)).
  rewrite !spaces_app, IH. cbn. lia.
Qed.

Lemma spaces_wrap (l r x : string) :
  spaces l = O -> spaces r = O -> spaces (l ++ x ++ r) = spaces x.
Proof. intros L R. rewrite !spaces_app, L, R. lia. Qed.

(** X2.  The serializer is compact: it puts no space of its own into a
    line.  The spaces of the serialization of a value are exactly the spaces
    of the strings (keys, values, float literals) that the value holds. *)
Theorem X2_dumps_adds_no_space (obj : json) :
  spaces (dumps obj) = spaces_of obj.
Proof.
  induction obj as [s|n|r|items IH|fields IH] using json_nested_ind.
  - apply spaces_encode_str.
  - apply spaces_int.
  - reflexivity.
  - cbn [dumps spaces_of]. rewrite spaces_wrap by reflexivity.
    rewrite spaces_join, map_map. f_equal.
    induction IH as [|x items Hx _ IHitems]; [reflexivity|].
    cbn [map]. now rewrite Hx, IHitems.
  - cbn [dumps spaces_of]. rewrite spaces_wrap by reflexivity.
    rewrite spaces_join, map_map. f_equal.
    induction IH as [|[k v] fields Hv _ IHfields]; [reflexivity|].
    cbn [map fst snd] in *. rewrite IHfields. f_equal.
    rewrite !spaces_app, spaces_encode_str, Hv. cbn. lia.
Qed.

(** Reading back what [escape] wrote. *)







(** Decimal numerals and record lines. *)


Lemma length_append (a b : string) :
  String.length (a ++ b) = (String.length a + String.length b)%nat.
Proof. induction a as [|c a IH]; simpl; [reflexivity|]. now rewrite IH. Qed.







Lemma wire_of_records (l : list action) : wire l = wire (map Emit (records l)).
Proof.
  induction l as [|[line|obj|secs] l IH]; cbn [wire records map]; try exact IH;
    [reflexivity | now rewrite IH].
Qed.





(** X5.  The lines that the loop skips are exactly the lines made of line
    feeds only (the empty string among them): any other character, anywhere
    in the line, makes it a request. *)
Theorem X5_blank_means_line_feeds_only (line : string) :
  blank line = true <-> all_chars is_line_feed line = true.
Proof.
  unfold blank. rewrite negb_true_iff.
  assert (T : forall s, Py.truthy s = false <-> s = "").
  { intros [|c s]; split; intros H; try reflexivity; discriminate H. }
  rewrite T.
  induction line as [|c t IH]; [split; reflexivity|].
  cbn [Py.rstrip all_chars]. rewrite andb_true_iff, <- IH.
  unfold Py.nl; cbn [Py.mem]. rewrite orb_false_r. fold (is_line_feed c).
  destruct (Py.rstrip (String (ascii_of_nat 10) "") t) as [|d r].
  - destruct (is_line_feed c); split; intros H; try reflexivity;
      try discriminate H; try (split; reflexivity). now destruct H.
  - split; [discriminate | intros [_ H]; discriminate H].
Qed.

Lemma trace_app (a b : list string) (turns : Z) :
  trace turns (a ++ b) =
  (trace turns a ++ trace (turns + Z.of_nat (requests a)) b)%list.
Proof.
  revert turns; induction a as [|line a IH]; intros turns.
  - cbn. now rewrite Z.add_0_r.
  - cbn [app trace]. unfold requests; cbn [filter].
    destruct (blank line); cbn [negb length]; fold (requests a).
    + now rewrite IH.
    + rewrite IH, <- app_assoc.
      now replace (turns + 1 + Z.of_nat (requests a))
        with (turns + Z.of_nat (S (requests a))) by lia.
Qed.

(** X6.  What a run writes is a function of the number of requests in its
    input and of nothing else, not even of where the blank lines are: two
    inputs give the same records, and the same text on standard output,
    exactly when they hold the same number of lines that are not blank. *)
Theorem X6_output_is_a_function_of_the_request_count (stdin1 stdin2 : list string) :
  (requests stdin1 = requests stdin2 <-> output stdin1 = output stdin2) /\
  (requests stdin1 = requests stdin2 <->
   stdout (snd (run stdin1)) = stdout (snd (run stdin2))).
Proof.
  assert (O : requests stdin1 = requests stdin2 -> output stdin1 = output stdin2).
  { intros E. now rewrite !output_run, E. }
  split; split.
  - exact O.
  - intros E. apply (f_equal (@length json)) in E.
    rewrite !output_length in E. lia.
  - intros E. rewrite !stdout_carries_the_log.
    rewrite (wire_of_records (log (snd (run stdin1)))).
    rewrite (wire_of_records (log (snd (run stdin2)))).
    fold (output stdin1) (output stdin2). now rewrite (O E).
  - intros E. apply (f_equal newlines) in E.
    rewrite !stdout_lines, !output_length in E. lia.
Qed.

(** X7.  The program answers as it reads.  What it has done when it has
    consumed the lines [before] is a prefix of what it does on any longer
    input [before ++ after]: the log and the text on standard output of the
    longer run extend those of the shorter one, by the reads of the lines
    of [after] and four records for each request among them. *)
Theorem X7_runs_extend_their_prefixes (before after : list string) :
  exists more : list action,
    log (snd (run (before ++ after))) = (log (snd (run before)) ++ more)%list /\
    stdout (snd (run (before ++ after))) = stdout (snd (run before)) ++ wire more /\
    reads more = after /\
    length (records more) = (4 * requests after)%nat.
Proof.
  exists (trace (Z.of_nat (requests before)) after).
  rewrite !main_run. cbn [snd log stdout]. rewrite trace_app. cbn [Z.add].
  split; [reflexivity|]. split.
  - change (Emit init_event :: ?l) with ([Emit init_event] ++ l)%list.
    now rewrite !wire_app, !append_assoc.
  - split; [apply reads_trace|].
    rewrite records_trace, flat_map_length_four by reflexivity.
    now rewrite length_seq.
Qed.

Lemma trace_is_a_dialogue (lines : list string) (turns : Z) :
  exists answers,
    Forall2 answered lines answers /\ trace turns lines = dialogue lines answers.
Proof.
  revert turns; induction lines as [|line rest IH]; intros turns.
  - exists []. split; [constructor | reflexivity].
  - cbn [trace]. destruct (blank line) eqn:B.
    + destruct (IH turns) as (answers & F & E).
      exists ([] :: answers). split.
      * constructor; [unfold answered; now rewrite B | exact F].
      * cbn [dialogue app]. now rewrite E.
    + destruct (IH (turns + 1)) as (answers & F & E).
      exists (turn (joke_at turns) (turns + 1) :: answers). split.
      * constructor; [|exact F]. unfold answered. rewrite B.
        now eexists _, _, _, _.
      * cbn [dialogue]. now rewrite E.
Qed.

(** X8.  On every input the program returns normally (the lookup in
    [JOKES] never leaves the list), and its log is the initialization
    record followed by a strict dialogue: each line of the input is read in
    turn and answered in full before the next one is read, a blank line by
    nothing, a request by first delta, a pause of 0.05 s, second delta,
    assistant message and result.  The only pauses are those between the
    two deltas of a request. *)
Theorem X8_runs_are_dialogues (stdin : list string) :
  fst (run stdin) = Ok tt /\
  exists answers : list (list action),
    Forall2 answered stdin answers /\
    log (snd (run stdin)) = Emit init_event :: dialogue stdin answers.
Proof.
  rewrite main_run. split; [reflexivity|].
  destruct (trace_is_a_dialogue stdin 0) as (answers & F & E).
  exists answers. cbn [snd log]. now rewrite E.
Qed.

(** X9.  The split is never made before the midpoint: for a non-empty
    content the first part holds more than half of the characters and the
    second part less than half, and the two lengths add up to the length of
    the content. *)
Theorem X9_first_part_is_the_longer (content : string) :
  content <> "" ->
  Py.len content < 2 * Py.len (fst (split content)) /\
  2 * Py.len (snd (split content)) < Py.len content /\
  Py.len (fst (split content)) + Py.len (snd (split content)) = Py.len content.
Proof.
  intros NE.
  assert (N : 0 < Py.len content).
  { unfold Py.len. destruct content; [congruence | cbn; lia]. }
  assert (M := midpoint_inside content).
  assert (D : Py.len content < 2 * (Py.len content / 2) + 2).
  { assert (Q := Z.div_mod (Py.len content) 2).
    assert (Q' := Z.mod_pos_bound (Py.len content) 2). lia. }
  assert (S : Py.len content / 2 <= split_point content).
  { destruct (split_point_cases content) as [[E _] | [R _]]; lia. }
  assert (L1 : Py.len (fst (split content)) =
               Z.min (split_point content + 1) (Py.len content)).
  { unfold split; cbn [fst]. unfold Py.slice_to.
    rewrite bound_inside by lia. unfold Py.len at 1. rewrite length_take.
    unfold Py.len. lia. }
  assert (G : Py.len (fst (split content)) + Py.len (snd (split content)) =
              Py.len content).
  { rewrite <- (split_glue content) at 3. unfold Py.len.
    rewrite length_append. lia. }
  lia.
Qed.

Lemma X9_single_word_witness :
  "abcde" <> "" /\
  Py.len "abcde" < 2 * Py.len (fst (split "abcde")) /\
  2 * Py.len (snd (split "abcde")) < Py.len "abcde" /\
  Py.len (fst (split "abcde")) + Py.len (snd (split "abcde")) = Py.len "abcde".
Proof.
  assert (NE : "abcde" <> "") by discriminate.
  split; [exact NE|].
  exact (X9_first_part_is_the_longer "abcde" NE).
Defined.

Lemma joke_at_in_jokes (turns : Z) : In (joke_at turns) JOKES.
Proof.
  unfold joke_at. apply nth_In. rewrite jokes_length.
  assert (R : 0 <= turns mod 6 < 6) by (apply Z.mod_pos_bound; lia).
  change (length JOKES) with 6%nat. lia.
Qed.

(** X10.  No run ever emits an empty delta: for every request of every
    run, both streamed texts are non-empty, and the first one ends with a
    space, the split being made at a word boundary of the response. *)
Theorem X10_deltas_are_never_empty (stdin : list string) (k : nat) :
  (k < requests stdin)%nat ->
  exists part1 part2,
    field delta_text (first_delta (output stdin) k) = Some (JStr part1) /\
    field delta_text (second_delta (output stdin) k) = Some (JStr part2) /\
    part1 <> "" /\ part2 <> "" /\
    char_at part1 (Py.len part1 - 1) = Some space.
Proof.
  intros H.
  exists (fst (split (joke_at (Z.of_nat k)))), (snd (split (joke_at (Z.of_nat k)))).
  unfold first_delta, second_delta. rewrite (output_turn stdin k H).
  split; [reflexivity|]. split; [reflexivity|].
  assert (A : forallb (fun joke =>
                Py.truthy (fst (split joke)) && Py.truthy (snd (split joke)) &&
                match char_at (fst (split joke)) (Py.len (fst (split joke)) - 1) with
                | Some c => Ascii.eqb c space
                | None => false
                end) JOKES = true) by reflexivity.
  rewrite forallb_forall in A. specialize (A _ (joke_at_in_jokes (Z.of_nat k))).
  apply andb_true_iff in A as [A C]. apply andb_true_iff in A as [A B].
  repeat split.
  - intros E. rewrite E in A. discriminate A.
  - intros E. rewrite E in B. discriminate B.
  - destruct (char_at _ _) as [c|]; [|discriminate C].
    apply Ascii.eqb_eq in C. now subst c.
Qed.

Lemma X10_third_request_witness :
  (2 < requests ["a"; "b"; "c"])%nat /\
  exists part1 part2,
    field delta_text (first_delta (output ["a"; "b"; "c"]) 2) = Some (JStr part1) /\
    field delta_text (second_delta (output ["a"; "b"; "c"]) 2) = Some (JStr part2) /\
    part1 <> "" /\ part2 <> "" /\
    char_at part1 (Py.len part1 - 1) = Some space.
Proof.
  assert (H : (2 < requests ["a"; "b"; "c"])%nat) by (vm_compute; lia).
  split; [exact H|].
  exact (X10_deltas_are_never_empty ["a"; "b"; "c"] 2 H).
Defined.
